(** * powermgr: power-source queries and sleep-prevention assertions

    A shallow embedding of [code/client/munkilib/powermgr.py].  The IOKit
    functions and the collaborating modules ([prefs], [os.path], [osutils],
    [display]) are the boundary of the module: what they answer is a field of
    the [host] record, and what the module says to them (log entries, assertion
    requests, releases) is recorded, in order, in a trace of [event]s. *)

From Stdlib Require Import ZArith Bool List Lia.
From stdpp Require Import base option list strings gmap.

Local Open Scope string_scope.
Local Open Scope Z_scope.
Local Open Scope list_scope.

(** ** Python values *)

(** The values that cross the boundary: preference values, console user
    names, descriptor attributes. *)
Inductive pyval : Type :=
| PyNone
| PyBool (b : bool)
| PyInt (z : Z)
| PyStr (s : string).

#[global] Instance pyval_eq_dec : EqDecision pyval.
Proof. solve_decision. Defined.

(** Truth value testing, as [if v:] and [not v] do it. *)
Definition truthy (v : pyval) : bool :=
  match v with
  | PyNone => false
  | PyBool b => b
  | PyInt z => negb (z =? 0)
  | PyStr s => negb (String.eqb s "")
  end.

(** [a and b]: the first operand when it is falsy, the second otherwise. *)
Definition py_and (a b : pyval) : pyval :=
  if truthy a then b else a.

(** [a == b].  A [bool] compares as the integer it is; a string is equal to
    strings only, and [None] to [None] only. *)
Definition py_eq (a b : pyval) : bool :=
  match a, b with
  | PyNone, PyNone => true
  | PyBool x, PyBool y => Bool.eqb x y
  | PyBool x, PyInt y | PyInt y, PyBool x => (if x then 1 else 0) =? y
  | PyInt x, PyInt y => x =? y
  | PyStr x, PyStr y => String.eqb x y
  | _, _ => false
  end.

(** ** The host *)

(** One power source's attributes: a dictionary from attribute names to
    values. *)
Abbreviation descriptor := (gmap string pyval).

(** [d.get(key)] and [d.get(key, dflt)]. *)
Definition dict_get (d : descriptor) (key : string) (dflt : pyval) : pyval :=
  default dflt (d !! key).

(** The snapshot that [IOPSCopyPowerSourcesInfo] hands out, with the three
    functions that read it.  Sources are handles; every handle of the list
    has a description, and a description is a dictionary, which is what the
    loops take for granted when they call [.get] on it. *)
Record ps_blob : Type := {
  IOPSGetProvidingPowerSourceType : pyval;
  IOPSCopyPowerSourcesList : list nat;
  IOPSGetPowerSourceDescription : nat -> descriptor
}.

Record host : Type := {
  IOPSCopyPowerSourcesInfo : ps_blob;
  (** [prefs.pref(name)] *)
  pref : string -> pyval;
  (** [os.path.exists(path)] *)
  path_exists : string -> bool;
  (** [constants.CHECKANDINSTALLATSTARTUPFLAG]; the constants module is not
      part of the sources at hand, so the path is left to the host. *)
  CHECKANDINSTALLATSTARTUPFLAG : string;
  (** [osutils.getconsoleuser()] *)
  getconsoleuser : pyval;
  (** What [IOPMAssertionCreateWithName(type, level, reason, None)] answers:
      the error code and the assertion id. *)
  IOPMAssertionCreateWithName : string -> Z -> string -> Z * Z
}.

(** ** Power queries *)

Definition onACPower (h : host) : bool :=
  let power_source := IOPSGetProvidingPowerSourceType (IOPSCopyPowerSourcesInfo h) in
  py_eq power_source (PyStr "AC Power").

Definition onBatteryPower (h : host) : bool :=
  let power_source := IOPSGetProvidingPowerSourceType (IOPSCopyPowerSourcesInfo h) in
  py_eq power_source (PyStr "Battery Power").

(** The test both loops make on a description. *)
Definition is_internal_battery (description : descriptor) : bool :=
  py_eq (dict_get description "Type" PyNone) (PyStr "InternalBattery").

(** The [for source in power_sources] loop of [getBatteryPercentage]: the
    first match returns from the function. *)
Fixpoint getBatteryPercentage_loop (ps : ps_blob) (power_sources : list nat) : pyval :=
  match power_sources with
  | [] => PyInt 0
  | source :: rest =>
      let description := IOPSGetPowerSourceDescription ps source in
      if is_internal_battery description
      then dict_get description "Current Capacity" (PyInt 0)
      else getBatteryPercentage_loop ps rest
  end.

Definition getBatteryPercentage (h : host) : pyval :=
  let ps := IOPSCopyPowerSourcesInfo h in
  let power_sources := IOPSCopyPowerSourcesList ps in
  getBatteryPercentage_loop ps power_sources.

Fixpoint hasInternalBattery_loop (ps : ps_blob) (power_sources : list nat) : bool :=
  match power_sources with
  | [] => false
  | source :: rest =>
      let description := IOPSGetPowerSourceDescription ps source in
      if is_internal_battery description
      then true
      else hasInternalBattery_loop ps rest
  end.

Definition hasInternalBattery (h : host) : bool :=
  let ps := IOPSCopyPowerSourcesInfo h in
  let power_sources := IOPSCopyPowerSourcesList ps in
  hasInternalBattery_loop ps power_sources.

(** The descriptions in the order the loops meet them. *)
Definition descriptions (h : host) : list descriptor :=
  let ps := IOPSCopyPowerSourcesInfo h in
  map (IOPSGetPowerSourceDescription ps) (IOPSCopyPowerSourcesList ps).

(** ** Effects *)

(** What the module does to the outside, in the order it does it. *)
Inductive event : Type :=
| display_info (msg : string)
| display_error (msg : string)
| CreateWithName (assertion_type : string) (level : Z) (reason : string)
| Release (assertion_id : Z).

#[global] Instance event_eq_dec : EqDecision event.
Proof. solve_decision. Defined.

Definition trace := list event.

(** A computation reads the trace so far and returns a value and the trace
    extended by what it did. *)
Definition M (A : Type) : Type := trace -> A * trace.

#[global] Instance M_ret : MRet M := fun _ a tr => (a, tr).
#[global] Instance M_bind : MBind M := fun _ _ f c tr =>
  let '(a, tr') := c tr in f a tr'.

Definition emit (e : event) : M unit := fun tr => (tt, tr ++ [e]).

(** The events a computation adds when it starts from an empty trace. *)
Definition emitted {A} (c : M A) : trace := (c []).2.

(** The value a computation returns when it starts from an empty trace. *)
Definition result {A} (c : M A) : A := (c []).1.

Definition is_info (e : event) : bool :=
  match e with display_info _ => true | _ => false end.
Definition is_error (e : event) : bool :=
  match e with display_error _ => true | _ => false end.
Definition is_create (e : event) : bool :=
  match e with CreateWithName _ _ _ => true | _ => false end.
Definition is_release (e : event) : bool :=
  match e with Release _ => true | _ => false end.
(** A call of one of the IOKit functions. *)
Definition is_host_call (e : event) : bool := is_create e || is_release e.
Definition is_log (e : event) : bool := is_info e || is_error e.

Fixpoint count (p : event -> bool) (tr : trace) : nat :=
  match tr with
  | [] => O
  | e :: tr' => if p e then S (count p tr') else count p tr'
  end.

(** ** Sleep-prevention assertions *)

Definition bootstrap_message : string :=
  "Display sleep suspended due to SuspendDisplaySleepDuringBootstrap preference enabled, bootstrap flag set, and currently at loginwindow.".

Definition default_reason : string := "Munki is installing software".

(** The value of the three-fold [and] that opens [assertSleepPrevention]. *)
Definition prevent_display_sleep (h : host) : pyval :=
  py_and (pref h "SuspendDisplaySleepDuringBootstrap")
    (py_and (PyBool (path_exists h (CHECKANDINSTALLATSTARTUPFLAG h)))
       (PyBool (py_eq (getconsoleuser h) (PyStr "loginwindow")))).

(** The assertion type that [assertSleepPrevention] settles on. *)
Definition kIOPMAssertionType (h : host) : string :=
  if truthy (prevent_display_sleep h)
  then "NoDisplaySleepAssertion" else "NoIdleSleepAssertion".

(** [if not reason: reason = 'Munki is installing software']: an absent
    reason and an empty one are both replaced. *)
Definition reason_or_default (reason : option string) : string :=
  match reason with
  | None => default_reason
  | Some r => if String.eqb r "" then default_reason else r
  end.

Definition assertSleepPrevention (h : host) (reason : option string) : M (option Z) :=
  let prevent_display_sleep := prevent_display_sleep h in
  kIOPMAssertionType ←
    (if truthy prevent_display_sleep
     then emit (display_info bootstrap_message) ;; mret "NoDisplaySleepAssertion"
     else mret "NoIdleSleepAssertion");
  let kIOPMAssertionLevelOn := 255 in
  let reason := reason_or_default reason in
  emit (display_info
          ("Preventing " +:+ (if truthy prevent_display_sleep then "display" else "idle")
             +:+ " sleep due to: " +:+ reason)) ;;
  emit (CreateWithName kIOPMAssertionType kIOPMAssertionLevelOn reason) ;;
  let '(errcode, assertID) :=
    IOPMAssertionCreateWithName h kIOPMAssertionType kIOPMAssertionLevelOn reason in
  if negb (errcode =? 0)
  then emit (display_error "Failed to create sleep prevention assertion.") ;; mret None
  else mret (Some assertID).

(** What the host answers to the one request [assertSleepPrevention] makes. *)
Definition create_outcome (h : host) (reason : option string) : Z * Z :=
  IOPMAssertionCreateWithName h (kIOPMAssertionType h) 255 (reason_or_default reason).

(** [if assertion_id:] holds for an id that is neither [None] nor [0]. *)
Definition removeSleepPreventionAssertion (assertion_id : option Z) : M unit :=
  match assertion_id with
  | Some id =>
      if negb (id =? 0)
      then emit (display_info "Allowing idle sleep") ;; emit (Release id)
      else mret tt
  | None => mret tt
  end.

Module Caffeinator.

Record t : Type := { assertion_id : option Z }.

Definition __init__ (h : host) (reason : option string) : M t :=
  id ← assertSleepPrevention h reason;
  mret {| assertion_id := id |}.

Definition __del__ (self : t) : M unit :=
  removeSleepPreventionAssertion (assertion_id self).

(** A handle that is made and then goes out of scope. *)
Definition lifetime (h : host) (reason : option string) : M unit :=
  self ← __init__ h reason;
  __del__ self.

End Caffeinator.

(** ** Hosts to run the module on *)

Module Hosts.

Definition battery : descriptor :=
  <["Type" := PyStr "InternalBattery"]> {["Current Capacity" := PyInt 87]}.

Definition ups : descriptor :=
  <["Type" := PyStr "UPS"]> {["Current Capacity" := PyInt 100]}.

Definition bare_battery : descriptor := {["Type" := PyStr "InternalBattery"]}.

Definition blob (providing : string) (ds : list descriptor) : ps_blob :=
  {| IOPSGetProvidingPowerSourceType := PyStr providing;
     IOPSCopyPowerSourcesList := seq 0 (length ds);
     IOPSGetPowerSourceDescription := fun i => nth i ds ∅ |}.

(** A machine with the given power sources; nobody is bootstrapping, and
    the host grants every assertion with id [id] and error code [err]. *)
Definition machine (providing : string) (ds : list descriptor) (err id : Z) : host :=
  {| IOPSCopyPowerSourcesInfo := blob providing ds;
     pref := fun _ => PyNone;
     path_exists := fun _ => false;
     CHECKANDINSTALLATSTARTUPFLAG :=
       "/Users/Shared/.com.googlecode.munki.checkandinstallatstartup";
     getconsoleuser := PyStr "alice";
     IOPMAssertionCreateWithName := fun _ _ _ => (err, id) |}.

(** A machine bootstrapping at the login window, with the preference set. *)
Definition bootstrapping (err id : Z) : host :=
  {| IOPSCopyPowerSourcesInfo := blob "AC Power" [];
     pref := fun name =>
       if String.eqb name "SuspendDisplaySleepDuringBootstrap"
       then PyBool true else PyNone;
     path_exists := fun _ => true;
     CHECKANDINSTALLATSTARTUPFLAG :=
       "/Users/Shared/.com.googlecode.munki.checkandinstallatstartup";
     getconsoleuser := PyStr "loginwindow";
     IOPMAssertionCreateWithName := fun _ _ _ => (err, id) |}.

(** A host whose power-management registry names no providing source. *)
Definition no_power_info : host :=
  {| IOPSCopyPowerSourcesInfo :=
       {| IOPSGetProvidingPowerSourceType := PyNone;
          IOPSCopyPowerSourcesList := [];
          IOPSGetPowerSourceDescription := fun _ => ∅ |};
     pref := fun _ => PyNone;
     path_exists := fun _ => false;
     CHECKANDINSTALLATSTARTUPFLAG :=
       "/Users/Shared/.com.googlecode.munki.checkandinstallatstartup";
     getconsoleuser := PyNone;
     IOPMAssertionCreateWithName := fun _ _ _ => (0, 1) |}.

End Hosts.

(** A caller that releases the same id twice in a row. *)
Definition release_twice (assertion_id : option Z) : M unit :=
  removeSleepPreventionAssertion assertion_id ;;
  removeSleepPreventionAssertion assertion_id.

(** ** What a run of the sleep-assertion functions adds to the trace *)

Lemma count_app p (tr1 tr2 : trace) :
  count p (tr1 ++ tr2) = (count p tr1 + count p tr2)%nat.
Proof.
  induction tr1 as [|e tr1 IH]; simpl; [reflexivity|].
  destruct (p e); rewrite IH; reflexivity.
Qed.

(** The log entry that names the sleep kind and the reason. *)
Definition preventing_message (h : host) (reason : option string) : string :=
  "Preventing " +:+ (if truthy (prevent_display_sleep h) then "display" else "idle")
    +:+ " sleep due to: " +:+ reason_or_default reason.

(** Everything up to and including the request to the host. *)
Definition request_events (h : host) (reason : option string) : trace :=
  (if truthy (prevent_display_sleep h) then [display_info bootstrap_message] else [])
    ++ [display_info (preventing_message h reason);
        CreateWithName (kIOPMAssertionType h) 255 (reason_or_default reason)].

Definition failure_events : trace :=
  [display_error "Failed to create sleep prevention assertion."].

Lemma assertSleepPrevention_run h reason tr :
  assertSleepPrevention h reason tr =
    if (create_outcome h reason).1 =? 0
    then (Some (create_outcome h reason).2, tr ++ request_events h reason)
    else (None, tr ++ request_events h reason ++ failure_events).
Proof.
  unfold assertSleepPrevention, create_outcome, request_events, failure_events,
    preventing_message, kIOPMAssertionType, mbind, M_bind, mret, M_ret, emit.
  destruct (truthy (prevent_display_sleep h)); simpl;
    match goal with
    | |- context [IOPMAssertionCreateWithName h ?k ?l ?r] =>
        destruct (IOPMAssertionCreateWithName h k l r) as [errcode assertID]
    end; simpl; destruct (errcode =? 0); simpl;
    repeat rewrite <- app_assoc; reflexivity.
Qed.

Lemma removeSleepPreventionAssertion_run assertion_id tr :
  removeSleepPreventionAssertion assertion_id tr =
    match assertion_id with
    | Some id =>
        if id =? 0 then (tt, tr)
        else (tt, tr ++ [display_info "Allowing idle sleep"; Release id])
    | None => (tt, tr)
    end.
Proof.
  unfold removeSleepPreventionAssertion, mbind, M_bind, mret, M_ret, emit.
  destruct assertion_id as [id|]; [|reflexivity].
  destruct (id =? 0); simpl; [reflexivity|].
  rewrite <- app_assoc; reflexivity.
Qed.

Lemma py_eq_str v s : py_eq v (PyStr s) = true <-> v = PyStr s.
Proof.
  destruct v as [|b|z|t]; simpl; try (split; [discriminate|congruence]).
  rewrite String.eqb_eq. split; congruence.
Qed.

(** The three conditions of the policy, each in its own words. *)
Definition flag_enabled (h : host) : bool :=
  truthy (pref h "SuspendDisplaySleepDuringBootstrap").
Definition marker_present (h : host) : bool :=
  path_exists h (CHECKANDINSTALLATSTARTUPFLAG h).
Definition at_loginwindow (h : host) : bool :=
  py_eq (getconsoleuser h) (PyStr "loginwindow").

Lemma at_loginwindow_spec h :
  at_loginwindow h = true <-> getconsoleuser h = PyStr "loginwindow".
Proof. apply py_eq_str. Qed.

(** The chained [and] is truthy exactly when its three operands are. *)
Lemma prevent_display_sleep_truthy h :
  truthy (prevent_display_sleep h) =
    flag_enabled h && marker_present h && at_loginwindow h.
Proof.
  unfold prevent_display_sleep, py_and, flag_enabled, marker_present, at_loginwindow.
  destruct (truthy (pref h "SuspendDisplaySleepDuringBootstrap")) eqn:Hpref; simpl.
  - destruct (path_exists h (CHECKANDINSTALLATSTARTUPFLAG h)); reflexivity.
  - exact Hpref.
Qed.

Lemma count_error_request h reason : count is_error (request_events h reason) = 0%nat.
Proof. unfold request_events. destruct (truthy _); reflexivity. Qed.

Lemma count_release_request h reason : count is_release (request_events h reason) = 0%nat.
Proof. unfold request_events. destruct (truthy _); reflexivity. Qed.

Lemma count_create_request h reason : count is_create (request_events h reason) = 1%nat.
Proof. unfold request_events. destruct (truthy _); reflexivity. Qed.

Lemma count_info_request h reason :
  count is_info (request_events h reason) =
    if truthy (prevent_display_sleep h) then 2%nat else 1%nat.
Proof. unfold request_events. destruct (truthy _); reflexivity. Qed.

(** A handle's life: the request, then the release of whatever came back. *)
Lemma lifetime_run h reason tr :
  Caffeinator.lifetime h reason tr =
    let '(id, tr') := assertSleepPrevention h reason tr in
    removeSleepPreventionAssertion id tr'.
Proof.
  unfold Caffeinator.lifetime, Caffeinator.__init__, Caffeinator.__del__,
    mbind, M_bind, mret, M_ret.
  destruct (assertSleepPrevention h reason tr) as [id tr']; reflexivity.
Qed.

(** ** The sleep-assertion manager *)

(** C1: when the host answers the creation request with a non-zero error
    code, [assertSleepPrevention] returns [None]; what it adds to the trace
    holds exactly one error entry, the one that says the assertion could not
    be created, and no release call.  The function is total: nothing but the
    returned value reaches the caller. *)
Theorem assertSleepPrevention_failure h reason tr :
  (create_outcome h reason).1 <> 0 ->
  exists added,
    assertSleepPrevention h reason tr = (None, tr ++ added) /\
    count is_error added = 1%nat /\
    In (display_error "Failed to create sleep prevention assertion.") added /\
    count is_release added = 0%nat.
Proof.
  intros Herr. exists (request_events h reason ++ failure_events).
  rewrite assertSleepPrevention_run.
  apply Z.eqb_neq in Herr. rewrite Herr.
  repeat split.
  - rewrite count_app, count_error_request. reflexivity.
  - apply in_or_app. right. left. reflexivity.
  - rewrite count_app, count_release_request. reflexivity.
Qed.

Lemma assertSleepPrevention_failure_witness :
  (create_outcome (Hosts.machine "Battery Power" [] 5 7) None).1 <> 0 /\
  exists added,
    assertSleepPrevention (Hosts.machine "Battery Power" [] 5 7) None [] = (None, [] ++ added) /\
    count is_error added = 1%nat /\
    In (display_error "Failed to create sleep prevention assertion.") added /\
    count is_release added = 0%nat.
Proof.
  split; [simpl; lia|].
  apply (assertSleepPrevention_failure (Hosts.machine "Battery Power" [] 5 7) None []).
  simpl; lia.
Defined.

Lemma assertSleepPrevention_emitted h reason :
  emitted (assertSleepPrevention h reason) =
    request_events h reason ++
      (if (create_outcome h reason).1 =? 0 then [] else failure_events).
Proof.
  unfold emitted. rewrite assertSleepPrevention_run.
  destruct ((create_outcome h reason).1 =? 0); simpl; [|reflexivity].
  rewrite app_nil_r. reflexivity.
Qed.

(** [tr] holds a request to the host for an assertion of type [kind], at
    level 255. *)
Definition requests (kind : string) (tr : trace) : Prop :=
  exists reason, In (CreateWithName kind 255 reason) tr.

(** The bootstrap explanation is logged ahead of the request to the host. *)
Definition explained_first (tr : trace) : Prop :=
  exists pre e post,
    tr = pre ++ e :: post /\ is_create e = true /\
    In (display_info bootstrap_message) pre.

Lemma preventing_is_not_bootstrap h reason :
  preventing_message h reason <> bootstrap_message.
Proof. unfold preventing_message, bootstrap_message. simpl. discriminate. Qed.

(** C2: [assertSleepPrevention] makes one request to the host.  It asks for a
    display-sleep assertion, with the bootstrap explanation logged ahead of
    the request, exactly when the preference is enabled, the marker file
    exists and the console user is the login window; as soon as one of the
    three fails it asks for an idle-sleep assertion and the explanation is
    nowhere in what it logs. *)
Theorem assertion_kind_policy h reason :
  let tr := emitted (assertSleepPrevention h reason) in
  let all_three := flag_enabled h && marker_present h && at_loginwindow h in
  count is_create tr = 1%nat /\
  (requests "NoDisplaySleepAssertion" tr <-> all_three = true) /\
  (explained_first tr <-> all_three = true) /\
  (requests "NoIdleSleepAssertion" tr <-> all_three = false) /\
  (In (display_info bootstrap_message) tr <-> all_three = true).
Proof.
  intros tr all_three. subst tr all_three.
  rewrite assertSleepPrevention_emitted, <- prevent_display_sleep_truthy.
  pose proof (preventing_is_not_bootstrap h reason) as Hne.
  unfold request_events, kIOPMAssertionType, failure_events, requests, explained_first.
  set (tl := if (create_outcome h reason).1 =? 0 then []
             else [display_error "Failed to create sleep prevention assertion."]).
  assert (Htl : forall e, In e tl -> is_error e = true).
  { subst tl. destruct (_ =? 0); intros e [].
    - subst e. reflexivity.
    - contradiction. }
  assert (Hcount : count is_create tl = 0%nat).
  { subst tl. destruct (_ =? 0); reflexivity. }
  destruct (truthy (prevent_display_sleep h)) eqn:Hd; simpl.
  all: rewrite Hcount.
  all: split; [reflexivity|].
  all: repeat split.
  all: try discriminate.
  all: try reflexivity.
  - intros _. exists (reason_or_default reason). right. right. left. reflexivity.
  - intros _.
    exists [display_info bootstrap_message; display_info (preventing_message h reason)],
      (CreateWithName "NoDisplaySleepAssertion" 255 (reason_or_default reason)), tl.
    repeat split. left. reflexivity.
  - intros [r [Hin|[Hin|[Hin|Hin]]]]; try discriminate.
    apply Htl in Hin. discriminate.
  - intros _. left. reflexivity.
  - intros [r [Hin|[Hin|Hin]]]; try discriminate.
    apply Htl in Hin. discriminate.
  - intros (pre & e & post & Heq & _ & Hin).
    assert (Hin' : In (display_info bootstrap_message) (pre ++ e :: post))
      by (apply in_or_app; left; exact Hin).
    rewrite <- Heq in Hin'.
    destruct Hin' as [Hin'|[Hin'|Hin']];
      [congruence | discriminate | apply Htl in Hin'; discriminate].
  - intros _. exists (reason_or_default reason). right. left. reflexivity.
  - intros [Hin|[Hin|Hin]];
      [congruence | discriminate | apply Htl in Hin; discriminate].
Qed.

(** Both branches of the policy, run. *)
Example policy_at_loginwindow :
  emitted (assertSleepPrevention (Hosts.bootstrapping 0 7) (Some "updates")) =
    [display_info bootstrap_message;
     display_info "Preventing display sleep due to: updates";
     CreateWithName "NoDisplaySleepAssertion" 255 "updates"].
Proof. reflexivity. Qed.

Example policy_with_user_logged_in :
  emitted (assertSleepPrevention (Hosts.machine "AC Power" [] 0 7) (Some "updates")) =
    [display_info "Preventing idle sleep due to: updates";
     CreateWithName "NoIdleSleepAssertion" 255 "updates"].
Proof. reflexivity. Qed.

Lemma removeSleepPreventionAssertion_nonzero id tr :
  id <> 0 ->
  removeSleepPreventionAssertion (Some id) tr =
    (tt, tr ++ [display_info "Allowing idle sleep"; Release id]).
Proof.
  intros Hid. rewrite removeSleepPreventionAssertion_run.
  apply Z.eqb_neq in Hid. rewrite Hid. reflexivity.
Qed.

(** A host that grants the request while bootstrapping at the login window:
    two informational entries come before the id is returned, so the count of
    one does not hold for every host that grants the request. *)
Lemma one_info_entry_before_success_fails :
  ~ (forall h reason assertID,
       create_outcome h reason = (0, assertID) ->
       result (assertSleepPrevention h reason) = Some assertID /\
       count is_info (emitted (assertSleepPrevention h reason)) = 1%nat /\
       count is_release
         (emitted (removeSleepPreventionAssertion (Some assertID))) = 1%nat /\
       count is_info
         (emitted (removeSleepPreventionAssertion (Some assertID))) = 1%nat).
Proof.
  intros H.
  destruct (H (Hosts.bootstrapping 0 7) None 7 eq_refl) as (_ & Hinfo & _).
  vm_compute in Hinfo. discriminate Hinfo.
Qed.

(** The other way the count fails: an id of 0 is granted and the release
    does nothing with it. *)
Example granted_zero_id_is_not_released :
  result (assertSleepPrevention (Hosts.machine "AC Power" [] 0 0) None) = Some 0 /\
  emitted (removeSleepPreventionAssertion (Some 0)) = [].
Proof. split; reflexivity. Qed.

(** C3 (amended): when the host grants the request (error code 0),
    [assertSleepPrevention] returns the id the host produced and logs no
    error; before it returns it logs one informational entry when it asks
    for an idle-sleep assertion and two when it asks for a display-sleep
    assertion (the bootstrap explanation, then the entry naming the sleep
    kind and the reason).  Releasing that id afterwards, when the id is not
    0, adds exactly the informational entry and one release call for the
    id. *)
Theorem assertSleepPrevention_success h reason tr assertID :
  create_outcome h reason = (0, assertID) ->
  exists added,
    assertSleepPrevention h reason tr = (Some assertID, tr ++ added) /\
    count is_error added = 0%nat /\
    count is_info added =
      (if flag_enabled h && marker_present h && at_loginwindow h
       then 2%nat else 1%nat) /\
    (assertID <> 0 ->
     forall tr', exists released,
       removeSleepPreventionAssertion (Some assertID) tr' = (tt, tr' ++ released) /\
       count is_release released = 1%nat /\
       In (Release assertID) released /\
       count is_info released = 1%nat /\
       count is_log released = 1%nat).
Proof.
  intros Hok. exists (request_events h reason).
  rewrite assertSleepPrevention_run, Hok.
  split; [reflexivity|].
  split; [apply count_error_request|].
  split.
  - rewrite count_info_request, prevent_display_sleep_truthy. reflexivity.
  - intros Hid tr'.
    exists [display_info "Allowing idle sleep"; Release assertID].
    split; [apply removeSleepPreventionAssertion_nonzero, Hid|].
    split; [reflexivity|].
    split; [right; left; reflexivity|].
    split; reflexivity.
Qed.

Lemma assertSleepPrevention_success_witness :
  create_outcome (Hosts.bootstrapping 0 7) (Some "updates") = (0, 7) /\
  exists added,
    assertSleepPrevention (Hosts.bootstrapping 0 7) (Some "updates") [] =
      (Some 7, [] ++ added) /\
    count is_error added = 0%nat /\
    count is_info added = 2%nat /\
    (7 <> 0 ->
     forall tr', exists released,
       removeSleepPreventionAssertion (Some 7) tr' = (tt, tr' ++ released) /\
       count is_release released = 1%nat /\
       In (Release 7) released /\
       count is_info released = 1%nat /\
       count is_log released = 1%nat).
Proof.
  split; [reflexivity|].
  apply (assertSleepPrevention_success (Hosts.bootstrapping 0 7) (Some "updates") [] 7).
  reflexivity.
Defined.

(** C4: [removeSleepPreventionAssertion(None)] leaves the trace as it found
    it: no call to the host, no log entry. *)
Theorem removeSleepPreventionAssertion_None tr :
  removeSleepPreventionAssertion None tr = (tt, tr) /\
  count is_host_call (emitted (removeSleepPreventionAssertion None)) = 0%nat /\
  count is_log (emitted (removeSleepPreventionAssertion None)) = 0%nat.
Proof. repeat split. Qed.

(** ** The scoped handle *)

(** C5: when the host refuses the request, making a [Caffeinator] still
    yields a handle, one that owns no assertion; its whole life, from
    [__init__] to [__del__], adds what [__init__] added and nothing more:
    no release call and exactly one error entry. *)
Theorem Caffeinator_failed_request h reason tr :
  (create_outcome h reason).1 <> 0 ->
  exists added,
    Caffeinator.__init__ h reason tr =
      ({| Caffeinator.assertion_id := None |}, tr ++ added) /\
    Caffeinator.lifetime h reason tr = (tt, tr ++ added) /\
    count is_release added = 0%nat /\
    count is_error added = 1%nat.
Proof.
  intros Herr. exists (request_events h reason ++ failure_events).
  rewrite lifetime_run.
  unfold Caffeinator.__init__, mbind, M_bind, mret, M_ret.
  rewrite assertSleepPrevention_run.
  apply Z.eqb_neq in Herr. rewrite Herr.
  repeat split.
  - rewrite count_app, count_release_request. reflexivity.
  - rewrite count_app, count_error_request. reflexivity.
Qed.

Lemma Caffeinator_failed_request_witness :
  (create_outcome (Hosts.bootstrapping 3 9) None).1 <> 0 /\
  exists added,
    Caffeinator.__init__ (Hosts.bootstrapping 3 9) None [] =
      ({| Caffeinator.assertion_id := None |}, [] ++ added) /\
    Caffeinator.lifetime (Hosts.bootstrapping 3 9) None [] = (tt, [] ++ added) /\
    count is_release added = 0%nat /\
    count is_error added = 1%nat.
Proof.
  split; [simpl; lia|].
  apply (Caffeinator_failed_request (Hosts.bootstrapping 3 9) None []).
  simpl; lia.
Defined.

(** ** The reason attached to the request *)

(** Without a reason from the caller the request does not carry the string
    "software is installing". *)
Lemma default_reason_is_not_software_is_installing :
  ~ (forall h kind level reason,
       In (CreateWithName kind level reason)
          (emitted (assertSleepPrevention h None)) ->
       reason = "software is installing").
Proof.
  intros H.
  assert (Hr : "Munki is installing software" = "software is installing").
  { apply (H (Hosts.machine "AC Power" [] 0 7) "NoIdleSleepAssertion" 255).
    right. left. reflexivity. }
  discriminate Hr.
Qed.

(** C8 (amended): without a reason from the caller, the one request that
    [assertSleepPrevention] makes to the host carries the fixed reason
    "Munki is installing software". *)
Theorem assertSleepPrevention_default_reason h :
  reason_or_default None = "Munki is installing software" /\
  count is_create (emitted (assertSleepPrevention h None)) = 1%nat /\
  forall kind level reason,
    In (CreateWithName kind level reason) (emitted (assertSleepPrevention h None)) <->
    kind = kIOPMAssertionType h /\ level = 255 /\
    reason = "Munki is installing software".
Proof.
  split; [reflexivity|].
  rewrite assertSleepPrevention_emitted.
  unfold request_events, failure_events.
  split.
  - destruct (truthy (prevent_display_sleep h));
      destruct ((create_outcome h None).1 =? 0); reflexivity.
  - intros kind level reason.
    destruct (truthy (prevent_display_sleep h));
      destruct ((create_outcome h None).1 =? 0); simpl; split.
    all: try (intros (-> & -> & ->); tauto).
    all: intros Hin;
      repeat (destruct Hin as [Hin|Hin]; try discriminate Hin);
      try contradiction; injection Hin as <- <- <-; repeat split.
Qed.

(** An empty reason is replaced like an absent one. *)
Example empty_reason_is_replaced :
  reason_or_default (Some "") = "Munki is installing software" /\
  reason_or_default (Some "updates") = "updates".
Proof. split; reflexivity. Qed.

(** ** An assertion id of 0 *)

(** C9: [removeSleepPreventionAssertion] does with the id 0 what it does
    with [None]: nothing, neither a release call nor a log entry.  So when
    the host grants a request with the id 0, [assertSleepPrevention] returns
    that id, and neither a release of it nor the end of the [Caffeinator]
    that owns it adds a release call to the trace. *)
Theorem zero_id_is_never_released :
  (forall tr,
     removeSleepPreventionAssertion (Some 0) tr =
       removeSleepPreventionAssertion None tr /\
     removeSleepPreventionAssertion (Some 0) tr = (tt, tr)) /\
  (forall h reason tr,
     create_outcome h reason = (0, 0) ->
     exists added,
       assertSleepPrevention h reason tr = (Some 0, tr ++ added) /\
       Caffeinator.__init__ h reason tr =
         ({| Caffeinator.assertion_id := Some 0 |}, tr ++ added) /\
       Caffeinator.lifetime h reason tr = (tt, tr ++ added) /\
       count is_create added = 1%nat /\
       count is_release added = 0%nat).
Proof.
  split.
  - intros tr. split; reflexivity.
  - intros h reason tr Hok. exists (request_events h reason).
    rewrite lifetime_run.
    unfold Caffeinator.__init__, mbind, M_bind, mret, M_ret.
    rewrite assertSleepPrevention_run, Hok.
    split; [reflexivity|].
    split; [reflexivity|].
    split; [reflexivity|].
    split; [apply count_create_request | apply count_release_request].
Qed.

Lemma zero_id_is_never_released_witness :
  create_outcome (Hosts.machine "AC Power" [] 0 0) None = (0, 0) /\
  exists added,
    assertSleepPrevention (Hosts.machine "AC Power" [] 0 0) None [] =
      (Some 0, [] ++ added) /\
    Caffeinator.__init__ (Hosts.machine "AC Power" [] 0 0) None [] =
      ({| Caffeinator.assertion_id := Some 0 |}, [] ++ added) /\
    Caffeinator.lifetime (Hosts.machine "AC Power" [] 0 0) None [] = (tt, [] ++ added) /\
    count is_create added = 1%nat /\
    count is_release added = 0%nat.
Proof.
  split; [reflexivity|].
  apply (proj2 zero_id_is_never_released (Hosts.machine "AC Power" [] 0 0) None []).
  reflexivity.
Defined.

(** ** The power queries *)

Lemma is_internal_battery_spec (d : descriptor) :
  is_internal_battery d = true <-> d !! "Type" = Some (PyStr "InternalBattery").
Proof.
  unfold is_internal_battery, dict_get. rewrite py_eq_str.
  destruct (d !! "Type") as [v|]; simpl; split; congruence.
Qed.

Lemma is_internal_battery_false (d : descriptor) :
  is_internal_battery d = false <-> d !! "Type" <> Some (PyStr "InternalBattery").
Proof.
  rewrite <- is_internal_battery_spec.
  destruct (is_internal_battery d); split; congruence.
Qed.

(** The loop of [getBatteryPercentage] passes over the sources whose
    description is not an internal battery's. *)
Lemma getBatteryPercentage_loop_skip ps pre rest :
  Forall (fun d : descriptor => d !! "Type" <> Some (PyStr "InternalBattery"))
    (map (IOPSGetPowerSourceDescription ps) pre) ->
  getBatteryPercentage_loop ps (pre ++ rest) = getBatteryPercentage_loop ps rest.
Proof.
  induction pre as [|source pre IH]; simpl; intros Hpre; [reflexivity|].
  inversion Hpre as [|d ds Hd Hds]; subst.
  apply is_internal_battery_false in Hd. rewrite Hd. apply IH, Hds.
Qed.

(** The same loop, told in the words of its description: the first
    descriptor of type [InternalBattery] decides. *)
Definition first_internal_battery (ds : list descriptor) : option descriptor :=
  List.find is_internal_battery ds.

Lemma getBatteryPercentage_loop_find ps power_sources :
  getBatteryPercentage_loop ps power_sources =
    match first_internal_battery
            (map (IOPSGetPowerSourceDescription ps) power_sources) with
    | Some d => default (PyInt 0) (d !! "Current Capacity")
    | None => PyInt 0
    end.
Proof.
  induction power_sources as [|source rest IH]; simpl; [reflexivity|].
  destruct (is_internal_battery (IOPSGetPowerSourceDescription ps source));
    [reflexivity | exact IH].
Qed.

(** C6: [getBatteryPercentage] returns the ['Current Capacity'] of the first
    description whose ['Type'] is ['InternalBattery'], or 0 when that
    description has no such key; it returns 0 when no description has that
    type, and so when there is no power source at all. *)
Theorem getBatteryPercentage_first_match h :
  (forall pre d post,
     descriptions h = pre ++ d :: post ->
     Forall (fun d' : descriptor => d' !! "Type" <> Some (PyStr "InternalBattery")) pre ->
     d !! "Type" = Some (PyStr "InternalBattery") ->
     getBatteryPercentage h = default (PyInt 0) (d !! "Current Capacity")) /\
  (Forall (fun d : descriptor => d !! "Type" <> Some (PyStr "InternalBattery"))
     (descriptions h) ->
   getBatteryPercentage h = PyInt 0) /\
  (descriptions h = [] -> getBatteryPercentage h = PyInt 0).
Proof.
  unfold descriptions, getBatteryPercentage.
  set (ps := IOPSCopyPowerSourcesInfo h).
  generalize (IOPSCopyPowerSourcesList ps) as srcs. intros srcs.
  split; [|split].
  - intros pre d post Heq Hpre Hd.
    apply map_eq_app in Heq as (srcs1 & srcs2 & -> & Hpre' & Hrest).
    destruct srcs2 as [|source srcs2]; [discriminate Hrest|].
    simpl in Hrest. injection Hrest as Hsrc Hpost.
    rewrite getBatteryPercentage_loop_skip by (rewrite Hpre'; exact Hpre).
    simpl. rewrite Hsrc.
    apply is_internal_battery_spec in Hd. rewrite Hd. reflexivity.
  - intros Hall.
    rewrite <- (app_nil_r srcs), getBatteryPercentage_loop_skip by exact Hall.
    reflexivity.
  - intros Hnil. destruct srcs; [reflexivity | discriminate Hnil].
Qed.

Lemma getBatteryPercentage_first_match_witness :
  getBatteryPercentage
    (Hosts.machine "Battery Power" [Hosts.ups; Hosts.battery; Hosts.bare_battery] 0 7)
  = PyInt 87.
Proof.
  apply (proj1 (getBatteryPercentage_first_match
                  (Hosts.machine "Battery Power"
                     [Hosts.ups; Hosts.battery; Hosts.bare_battery] 0 7))
           [Hosts.ups] Hosts.battery [Hosts.bare_battery]).
  - reflexivity.
  - constructor; [|constructor]. vm_compute. discriminate.
  - vm_compute. reflexivity.
Defined.

(** A battery whose description has no ['Current Capacity'], met first. *)
Example getBatteryPercentage_without_capacity :
  getBatteryPercentage
    (Hosts.machine "Battery Power" [Hosts.ups; Hosts.bare_battery; Hosts.battery] 0 7)
  = PyInt 0.
Proof. vm_compute. reflexivity. Qed.

(** C7: for a host that reports the string [s] as the source providing
    power, [onACPower] answers true and [onBatteryPower] false exactly when
    [s] is "AC Power", the other way round exactly when [s] is "Battery
    Power", and both answer false on any other string.  Both are total
    functions into [bool]. *)
Theorem providing_power_source h s :
  IOPSGetProvidingPowerSourceType (IOPSCopyPowerSourcesInfo h) = PyStr s ->
  (onACPower h = true /\ onBatteryPower h = false <-> s = "AC Power") /\
  (onBatteryPower h = true /\ onACPower h = false <-> s = "Battery Power") /\
  (s <> "AC Power" -> s <> "Battery Power" ->
   onACPower h = false /\ onBatteryPower h = false).
Proof.
  intros Hs. unfold onACPower, onBatteryPower. rewrite Hs. simpl.
  destruct (String.eqb_spec s "AC Power") as [Hac|Hac];
    destruct (String.eqb_spec s "Battery Power") as [Hb|Hb].
  - congruence.
  - repeat split; try congruence; intros []; congruence.
  - repeat split; try congruence; intros []; congruence.
  - repeat split; try congruence; intros []; congruence.
Qed.

Lemma providing_power_source_witness :
  (onACPower (Hosts.machine "AC Power" [] 0 7) = true /\
   onBatteryPower (Hosts.machine "AC Power" [] 0 7) = false <->
   "AC Power" = "AC Power") /\
  (onBatteryPower (Hosts.machine "AC Power" [] 0 7) = true /\
   onACPower (Hosts.machine "AC Power" [] 0 7) = false <->
   "AC Power" = "Battery Power") /\
  ("AC Power" <> "AC Power" -> "AC Power" <> "Battery Power" ->
   onACPower (Hosts.machine "AC Power" [] 0 7) = false /\
   onBatteryPower (Hosts.machine "AC Power" [] 0 7) = false).
Proof.
  apply (providing_power_source (Hosts.machine "AC Power" [] 0 7) "AC Power").
  reflexivity.
Defined.

Example on_battery_power :
  onACPower (Hosts.machine "Battery Power" [] 0 7) = false /\
  onBatteryPower (Hosts.machine "Battery Power" [] 0 7) = true.
Proof. split; reflexivity. Qed.

Example on_ups_power :
  onACPower (Hosts.machine "UPS Power" [] 0 7) = false /\
  onBatteryPower (Hosts.machine "UPS Power" [] 0 7) = false.
Proof. split; reflexivity. Qed.

(** The two loops run over the same sources with the same test. *)
Lemma hasInternalBattery_loop_false ps power_sources :
  hasInternalBattery_loop ps power_sources = false ->
  getBatteryPercentage_loop ps power_sources = PyInt 0.
Proof.
  induction power_sources as [|source rest IH]; simpl; [reflexivity|].
  destruct (is_internal_battery (IOPSGetPowerSourceDescription ps source));
    [discriminate | exact IH].
Qed.

(** C10: on a host where [hasInternalBattery] answers false,
    [getBatteryPercentage] returns 0. *)
Theorem no_internal_battery_no_charge h :
  hasInternalBattery h = false -> getBatteryPercentage h = PyInt 0.
Proof.
  unfold hasInternalBattery, getBatteryPercentage.
  apply hasInternalBattery_loop_false.
Qed.

Lemma no_internal_battery_no_charge_witness :
  hasInternalBattery (Hosts.machine "AC Power" [Hosts.ups] 0 7) = false /\
  getBatteryPercentage (Hosts.machine "AC Power" [Hosts.ups] 0 7) = PyInt 0.
Proof.
  split; [vm_compute; reflexivity|].
  apply (no_internal_battery_no_charge (Hosts.machine "AC Power" [Hosts.ups] 0 7)).
  vm_compute; reflexivity.
Defined.


(** ** Further properties of the power queries *)

Lemma hasInternalBattery_loop_true ps power_sources :
  hasInternalBattery_loop ps power_sources = true <->
  exists d : descriptor,
    In d (map (IOPSGetPowerSourceDescription ps) power_sources) /\
    d !! "Type" = Some (PyStr "InternalBattery").
Proof.
  induction power_sources as [|source rest IH]; simpl.
  - split; [discriminate | intros (d & [] & _)].
  - destruct (is_internal_battery (IOPSGetPowerSourceDescription ps source)) eqn:Hb.
    + split; [intros _ | reflexivity].
      exists (IOPSGetPowerSourceDescription ps source).
      split; [left; reflexivity | apply is_internal_battery_spec, Hb].
    + rewrite IH. split.
      * intros (d & Hin & Hd). exists d. split; [right; exact Hin | exact Hd].
      * intros (d & [Heq|Hin] & Hd).
        -- subst d. apply is_internal_battery_spec in Hd. congruence.
        -- exists d. split; assumption.
Qed.

(** X1: [hasInternalBattery] answers true exactly when one of the host's
    power sources has a description whose ['Type'] is the string
    ['InternalBattery']. *)
Theorem hasInternalBattery_iff h :
  hasInternalBattery h = true <->
  exists d : descriptor,
    In d (descriptions h) /\ d !! "Type" = Some (PyStr "InternalBattery").
Proof. unfold hasInternalBattery, descriptions. apply hasInternalBattery_loop_true. Qed.

(** X2: whatever the host reports as the providing source, [onACPower] and
    [onBatteryPower] never both answer true. *)
Theorem not_on_both_power_sources h :
  ~ (onACPower h = true /\ onBatteryPower h = true).
Proof.
  unfold onACPower, onBatteryPower. intros [Hac Hb].
  apply py_eq_str in Hac. apply py_eq_str in Hb. congruence.
Qed.

(** X3: when the host reports something that is not a string as the
    providing source ([None], a number), both [onACPower] and
    [onBatteryPower] answer false. *)
Theorem no_providing_string_no_power h :
  (forall s, IOPSGetProvidingPowerSourceType (IOPSCopyPowerSourcesInfo h) <> PyStr s) ->
  onACPower h = false /\ onBatteryPower h = false.
Proof.
  intros Hns. unfold onACPower, onBatteryPower.
  destruct (IOPSGetProvidingPowerSourceType (IOPSCopyPowerSourcesInfo h)) as [|b|z|s];
    simpl; try (split; reflexivity).
  exfalso. exact (Hns s eq_refl).
Qed.

Lemma no_providing_string_no_power_witness :
  onACPower Hosts.no_power_info = false /\
  onBatteryPower Hosts.no_power_info = false.
Proof.
  apply (no_providing_string_no_power Hosts.no_power_info).
  intros s. simpl. discriminate.
Defined.

Lemma getBatteryPercentage_loop_split ps power_sources :
  hasInternalBattery_loop ps power_sources = true ->
  exists pre source post,
    power_sources = pre ++ source :: post /\
    Forall (fun d : descriptor => d !! "Type" <> Some (PyStr "InternalBattery"))
      (map (IOPSGetPowerSourceDescription ps) pre) /\
    IOPSGetPowerSourceDescription ps source !! "Type" = Some (PyStr "InternalBattery") /\
    getBatteryPercentage_loop ps power_sources =
      default (PyInt 0) (IOPSGetPowerSourceDescription ps source !! "Current Capacity").
Proof.
  induction power_sources as [|source rest IH]; simpl; [discriminate|].
  destruct (is_internal_battery (IOPSGetPowerSourceDescription ps source)) eqn:Hb.
  - intros _. exists [], source, rest.
    split; [reflexivity|]. split; [constructor|].
    split; [apply is_internal_battery_spec, Hb | reflexivity].
  - intros Hrest. destruct (IH Hrest) as (pre & src & post & -> & Hpre & Hsrc & Hval).
    exists (source :: pre), src, post.
    split; [reflexivity|].
    split; [constructor; [apply is_internal_battery_false, Hb | exact Hpre]|].
    split; assumption.
Qed.

(** X4: on a host where [hasInternalBattery] answers true, the value of
    [getBatteryPercentage] comes from the first description of type
    ['InternalBattery']: the descriptions split into ones of other types,
    that description, and a rest that is not looked at; the value is its
    ['Current Capacity'], or 0 when it has none. *)
Theorem internal_battery_gives_its_charge h :
  hasInternalBattery h = true ->
  exists pre d post,
    descriptions h = pre ++ d :: post /\
    Forall (fun d' : descriptor => d' !! "Type" <> Some (PyStr "InternalBattery")) pre /\
    d !! "Type" = Some (PyStr "InternalBattery") /\
    getBatteryPercentage h = default (PyInt 0) (d !! "Current Capacity").
Proof.
  unfold hasInternalBattery, getBatteryPercentage, descriptions. intros Hhas.
  destruct (getBatteryPercentage_loop_split _ _ Hhas)
    as (pre & source & post & Heq & Hpre & Hsrc & Hval).
  exists (map (IOPSGetPowerSourceDescription (IOPSCopyPowerSourcesInfo h)) pre),
    (IOPSGetPowerSourceDescription (IOPSCopyPowerSourcesInfo h) source),
    (map (IOPSGetPowerSourceDescription (IOPSCopyPowerSourcesInfo h)) post).
  split; [rewrite Heq, map_app; reflexivity|].
  split; [exact Hpre|]. split; assumption.
Qed.

Lemma internal_battery_gives_its_charge_witness :
  exists pre d post,
    descriptions (Hosts.machine "AC Power" [Hosts.ups; Hosts.battery] 0 7) =
      pre ++ d :: post /\
    Forall (fun d' : descriptor => d' !! "Type" <> Some (PyStr "InternalBattery")) pre /\
    d !! "Type" = Some (PyStr "InternalBattery") /\
    getBatteryPercentage (Hosts.machine "AC Power" [Hosts.ups; Hosts.battery] 0 7) =
      default (PyInt 0) (d !! "Current Capacity").
Proof.
  apply (internal_battery_gives_its_charge
           (Hosts.machine "AC Power" [Hosts.ups; Hosts.battery] 0 7)).
  vm_compute. reflexivity.
Defined.

(** ** Further properties of the sleep assertions *)

(** X5: an empty reason is a reason not given: [assertSleepPrevention('')]
    returns what [assertSleepPrevention()] returns and does the same things,
    and so does a [Caffeinator] made with it. *)
Theorem empty_reason_is_no_reason h tr :
  assertSleepPrevention h (Some "") tr = assertSleepPrevention h None tr /\
  Caffeinator.lifetime h (Some "") tr = Caffeinator.lifetime h None tr.
Proof.
  assert (Hrun : assertSleepPrevention h (Some "") tr = assertSleepPrevention h None tr)
    by (rewrite !assertSleepPrevention_run; reflexivity).
  split; [exact Hrun|].
  rewrite !lifetime_run, Hrun. reflexivity.
Qed.

Lemma reason_or_default_nonempty r : r <> "" -> reason_or_default (Some r) = r.
Proof.
  intros Hr. unfold reason_or_default.
  apply String.eqb_neq in Hr. rewrite Hr. reflexivity.
Qed.

(** X6: a reason that is not empty reaches the host as it was given: the
    request carries it, and no request of the call carries anything else. *)
Theorem given_reason_reaches_host h r :
  r <> "" ->
  In (CreateWithName (kIOPMAssertionType h) 255 r)
     (emitted (assertSleepPrevention h (Some r))) /\
  forall kind level reason,
    In (CreateWithName kind level reason) (emitted (assertSleepPrevention h (Some r))) ->
    reason = r.
Proof.
  intros Hr. rewrite assertSleepPrevention_emitted.
  unfold request_events, failure_events.
  rewrite (reason_or_default_nonempty r Hr).
  destruct (truthy (prevent_display_sleep h));
    destruct ((create_outcome h (Some r)).1 =? 0); simpl; split.
  all: try (right; left; reflexivity).
  all: try (right; right; left; reflexivity).
  all: intros kind level reason Hin;
    repeat (destruct Hin as [Hin|Hin]; try discriminate Hin);
    try contradiction; injection Hin as _ _ <-; reflexivity.
Qed.

Lemma given_reason_reaches_host_witness :
  In (CreateWithName (kIOPMAssertionType (Hosts.bootstrapping 0 7)) 255 "updates")
     (emitted (assertSleepPrevention (Hosts.bootstrapping 0 7) (Some "updates"))) /\
  forall kind level reason,
    In (CreateWithName kind level reason)
       (emitted (assertSleepPrevention (Hosts.bootstrapping 0 7) (Some "updates"))) ->
    reason = "updates".
Proof.
  apply (given_reason_reaches_host (Hosts.bootstrapping 0 7) "updates").
  discriminate.
Defined.

(** X7: what a call of [assertSleepPrevention] does, in order: one or more
    informational entries, then the one request to the host, then error
    entries only, and at most one of them.  It never releases anything. *)
Theorem assertSleepPrevention_order h reason :
  exists infos errors,
    emitted (assertSleepPrevention h reason) =
      infos ++ CreateWithName (kIOPMAssertionType h) 255 (reason_or_default reason)
            :: errors /\
    infos <> [] /\
    Forall (fun e => is_info e = true) infos /\
    Forall (fun e => is_error e = true) errors /\
    (length errors <= 1)%nat /\
    count is_release (emitted (assertSleepPrevention h reason)) = 0%nat.
Proof.
  rewrite assertSleepPrevention_emitted. unfold request_events, failure_events.
  exists ((if truthy (prevent_display_sleep h)
           then [display_info bootstrap_message] else [])
          ++ [display_info (preventing_message h reason)]),
    (if (create_outcome h reason).1 =? 0 then []
     else [display_error "Failed to create sleep prevention assertion."]).
  destruct (truthy (prevent_display_sleep h));
    destruct ((create_outcome h reason).1 =? 0); simpl.
  all: split; [reflexivity|].
  all: split; [discriminate|].
  all: split; [repeat constructor|].
  all: split; [repeat constructor|].
  all: split; [lia | reflexivity].
Qed.

(** X8: the entry logged right before the request names the kind of sleep
    that the request is about, and the reason that the request carries. *)
Theorem log_names_what_is_requested h reason :
  exists pre post kind word,
    emitted (assertSleepPrevention h reason) =
      pre ++ [display_info ("Preventing " +:+ word +:+ " sleep due to: "
                              +:+ reason_or_default reason);
              CreateWithName kind 255 (reason_or_default reason)] ++ post /\
    (kind = "NoDisplaySleepAssertion" /\ word = "display" \/
     kind = "NoIdleSleepAssertion" /\ word = "idle").
Proof.
  rewrite assertSleepPrevention_emitted.
  unfold request_events, preventing_message, kIOPMAssertionType.
  destruct (truthy (prevent_display_sleep h)).
  - exists [display_info bootstrap_message],
      (if (create_outcome h reason).1 =? 0 then [] else failure_events),
      "NoDisplaySleepAssertion", "display".
    split; [reflexivity | left; split; reflexivity].
  - exists [], (if (create_outcome h reason).1 =? 0 then [] else failure_events),
      "NoIdleSleepAssertion", "idle".
    split; [reflexivity | right; split; reflexivity].
Qed.

(** ** Further properties of the scoped handle *)

(** What a handle's life adds to the trace, by what the host answered. *)
Lemma lifetime_emitted h reason :
  emitted (Caffeinator.lifetime h reason) =
    request_events h reason ++
      (if (create_outcome h reason).1 =? 0
       then if (create_outcome h reason).2 =? 0 then []
            else [display_info "Allowing idle sleep";
                  Release (create_outcome h reason).2]
       else failure_events).
Proof.
  unfold emitted. rewrite lifetime_run, assertSleepPrevention_run.
  destruct ((create_outcome h reason).1 =? 0);
    rewrite removeSleepPreventionAssertion_run.
  - destruct ((create_outcome h reason).2 =? 0); simpl;
      [rewrite app_nil_r|]; reflexivity.
  - reflexivity.
Qed.

(** X9: when the host grants the request with an id other than 0, the life
    of a [Caffeinator] is the request followed by its release: [__init__]
    stores the id, and [__del__] adds the 'Allowing idle sleep' entry and
    one release call, for that id, after everything [__init__] did. *)
Theorem Caffeinator_granted_request h reason tr assertID :
  create_outcome h reason = (0, assertID) ->
  assertID <> 0 ->
  exists added,
    Caffeinator.__init__ h reason tr =
      ({| Caffeinator.assertion_id := Some assertID |}, tr ++ added) /\
    Caffeinator.lifetime h reason tr =
      (tt, tr ++ added ++ [display_info "Allowing idle sleep"; Release assertID]) /\
    count is_create added = 1%nat /\
    count is_release added = 0%nat /\
    count is_error added = 0%nat.
Proof.
  intros Hok Hid. exists (request_events h reason).
  rewrite lifetime_run.
  unfold Caffeinator.__init__, mbind, M_bind, mret, M_ret.
  rewrite assertSleepPrevention_run, Hok.
  split; [reflexivity|].
  split.
  - change ((0, assertID).1 =? 0) with true. cbv iota.
    rewrite removeSleepPreventionAssertion_nonzero by exact Hid.
    rewrite <- app_assoc. reflexivity.
  - split; [apply count_create_request|].
    split; [apply count_release_request | apply count_error_request].
Qed.

Lemma Caffeinator_granted_request_witness :
  exists added,
    Caffeinator.__init__ (Hosts.bootstrapping 0 7) None [] =
      ({| Caffeinator.assertion_id := Some 7 |}, [] ++ added) /\
    Caffeinator.lifetime (Hosts.bootstrapping 0 7) None [] =
      (tt, [] ++ added ++ [display_info "Allowing idle sleep"; Release 7]) /\
    count is_create added = 1%nat /\
    count is_release added = 0%nat /\
    count is_error added = 0%nat.
Proof.
  apply (Caffeinator_granted_request (Hosts.bootstrapping 0 7) None [] 7).
  - reflexivity.
  - lia.
Defined.

(** X10: in the life of a [Caffeinator] there is at most one release call,
    and it is for an id, other than 0, that the host granted to this
    handle's request with error code 0.  When a release is made, nothing was
    logged as an error. *)
Theorem Caffeinator_releases_only_what_was_granted h reason :
  (count is_release (emitted (Caffeinator.lifetime h reason)) <= 1)%nat /\
  forall id,
    In (Release id) (emitted (Caffeinator.lifetime h reason)) ->
    create_outcome h reason = (0, id) /\ id <> 0 /\
    count is_error (emitted (Caffeinator.lifetime h reason)) = 0%nat.
Proof.
  rewrite lifetime_emitted.
  destruct (create_outcome h reason) as [errcode assertID]; simpl.
  destruct (Z.eqb_spec errcode 0) as [->|Herr];
    [destruct (Z.eqb_spec assertID 0) as [->|Hid]|].
  all: rewrite !count_app, ?count_release_request, ?count_error_request; simpl.
  all: split; [lia|].
  all: intros id Hin; apply in_app_or in Hin as [Hin|Hin].
  all: try (exfalso; unfold request_events in Hin;
            destruct (truthy (prevent_display_sleep h)); simpl in Hin;
            repeat (destruct Hin as [Hin|Hin]; try discriminate Hin);
            contradiction).
  destruct Hin as [Hin|[Hin|[]]]; [discriminate Hin|].
  injection Hin as <-. repeat split. exact Hid.
Qed.

(** X11: the release keeps no record of what it released.  Releasing the
    same id twice, when the id is neither [None] nor 0, sends the host two
    release calls for it, each after its own log entry. *)
Theorem release_twice_releases_twice id tr :
  id <> 0 ->
  release_twice (Some id) tr =
    (tt, tr ++ [display_info "Allowing idle sleep"; Release id;
                display_info "Allowing idle sleep"; Release id]).
Proof.
  intros Hid. unfold release_twice, mbind, M_bind.
  rewrite removeSleepPreventionAssertion_nonzero by exact Hid.
  rewrite removeSleepPreventionAssertion_nonzero by exact Hid.
  rewrite <- app_assoc. reflexivity.
Qed.

Lemma release_twice_releases_twice_witness :
  release_twice (Some 7) [] =
    (tt, [] ++ [display_info "Allowing idle sleep"; Release 7;
                display_info "Allowing idle sleep"; Release 7]).
Proof. apply (release_twice_releases_twice 7 []). lia. Defined.
